(** * Platinum RTD conversion routines (platinum_rtd_sensor.c), verified

    A shallow embedding of [RTD_CalculateResistance] and
    [RTD_CalculateTemperature] over IEEE-754 binary64 numbers.  The C type
    [double] is Rocq's primitive [float]; every C operator is the matching
    binary64 operation rounded to nearest-even, one rounding per operator
    (no fused multiply-add, no extended intermediate precision).  The
    [uint16_t] sensor type is a [Z]; the loop counter never leaves
    [0 .. 1000], so it is a [Z] as well.

    The functions come first, then the formulas of the specification
    ([Spec]), then the theorems: the forward converter, the loop,
    validation, the cap, estimates that are not finite, the resistance
    bands, the derivative, the round trip on sample temperatures, and what
    every call returns. *)

From Stdlib Require Import ZArith Bool Lia List.
From Stdlib Require Import Floats.
From Stdlib Require Uint63.
Import ListNotations.

#[local] Set Warnings "-inexact-float".
#[local] Open Scope float_scope.

(** ** The header: coefficients, sensor types, failure value *)

Definition RTD_A_COEFFICIENT : float := 3.908302087e-3.
Definition RTD_B_COEFFICIENT : float := -5.775000000e-7.
Definition RTD_C_COEFFICIENT : float := -4.183010000e-12.

Definition RTD_SENSOR_PT50 : Z := 50.
Definition RTD_SENSOR_PT100 : Z := 100.
Definition RTD_SENSOR_PT200 : Z := 200.
Definition RTD_SENSOR_PT500 : Z := 500.
Definition RTD_SENSOR_PT1000 : Z := 1000.

Definition RTD_CONVERSION_FAILED : float := -1.0e6.

(** ** C operators on [double] *)

(** [!x] on a double: true exactly when [x == 0.0] (so for both zeros, and
    never for NaN). *)
Definition c_not (x : float) : bool := x =? 0.

(** [a > b] and [a >= b]; like [<] they are false as soon as an operand is
    NaN. *)
Definition gtb (a b : float) : bool := b <? a.
Definition geb (a b : float) : bool := b <=? a.

(** [fabs] of math.h. *)
Definition fabs (x : float) : float := abs x.

(** ** RTD_CalculateResistance *)

(** The [switch] of [RTD_CalculateResistance]: the resistance at zero degrees
    of a sensor type, [0.0] (the initial value) in the [default] case. *)
Definition resistance_at_zero_of (sensor_type : Z) : float :=
  if (sensor_type =? RTD_SENSOR_PT50)%Z then 50.0
  else if (sensor_type =? RTD_SENSOR_PT100)%Z then 100.0
  else if (sensor_type =? RTD_SENSOR_PT200)%Z then 200.0
  else if (sensor_type =? RTD_SENSOR_PT500)%Z then 500.0
  else if (sensor_type =? RTD_SENSOR_PT1000)%Z then 1000.0
  else 0.0.

Definition RTD_CalculateResistance (sensor_type : Z) (temperature : float)
  : float :=
  if (temperature <? -200.5) || gtb temperature 850.5 then
    RTD_CONVERSION_FAILED
  else
    let resistance_at_zero := resistance_at_zero_of sensor_type in
    if c_not resistance_at_zero then RTD_CONVERSION_FAILED
    else
      let temp_squared := temperature * temperature in
      if geb temperature 0.0 then
        resistance_at_zero
        * (1.0 + RTD_A_COEFFICIENT * temperature
           + RTD_B_COEFFICIENT * temp_squared)
      else
        let temp_cubed := temp_squared * temperature in
        resistance_at_zero
        * (1.0 + RTD_A_COEFFICIENT * temperature
           + RTD_B_COEFFICIENT * temp_squared
           + RTD_C_COEFFICIENT * (temperature - 100.0) * temp_cubed).

(** ** RTD_CalculateTemperature *)

Definition max_iterations : Z := 1000.
Definition tolerance : float := 1e-8.

(** The [switch] of [RTD_CalculateTemperature].  It sets [resistance_at_zero]
    and leaves [temperature] at [0.0] or sets it to [RTD_CONVERSION_FAILED];
    the pair returned is [(resistance_at_zero, temperature)]. *)
Definition check_resistance (sensor_type : Z) (resistance : float)
  : float * float :=
  if (sensor_type =? RTD_SENSOR_PT50)%Z then
    (50.0,
     if (resistance <? 9.2) || gtb resistance 195.3
     then RTD_CONVERSION_FAILED else 0.0)
  else if (sensor_type =? RTD_SENSOR_PT100)%Z then
    (100.0,
     if (resistance <? 18.3) || gtb resistance 390.6
     then RTD_CONVERSION_FAILED else 0.0)
  else if (sensor_type =? RTD_SENSOR_PT200)%Z then
    (200.0,
     if (resistance <? 36.5) || gtb resistance 781.3
     then RTD_CONVERSION_FAILED else 0.0)
  else if (sensor_type =? RTD_SENSOR_PT500)%Z then
    (500.0,
     if (resistance <? 91.5) || gtb resistance 1953.0
     then RTD_CONVERSION_FAILED else 0.0)
  else if (sensor_type =? RTD_SENSOR_PT1000)%Z then
    (1000.0,
     if (resistance <? 182.5) || gtb resistance 3906.5
     then RTD_CONVERSION_FAILED else 0.0)
  else (0.0, RTD_CONVERSION_FAILED).

(** The two assignments at the head of the loop body:
    [(function_value, derivative_value)] at the current estimate. *)
Definition evaluate (resistance_at_zero resistance temperature_estimate : float)
  : float * float :=
  if geb temperature_estimate 0.0 then
    (resistance_at_zero
     * (1.0 + RTD_A_COEFFICIENT * temperature_estimate
        + RTD_B_COEFFICIENT * temperature_estimate * temperature_estimate)
     - resistance,
     resistance_at_zero
     * (RTD_A_COEFFICIENT + 2.0 * RTD_B_COEFFICIENT * temperature_estimate))
  else
    let temp_squared := temperature_estimate * temperature_estimate in
    let temp_cubed := temp_squared * temperature_estimate in
    (resistance_at_zero
     * (1.0 + RTD_A_COEFFICIENT * temperature_estimate
        + RTD_B_COEFFICIENT * temp_squared
        + RTD_C_COEFFICIENT * (temperature_estimate - 100.0) * temp_cubed)
     - resistance,
     resistance_at_zero
     * (RTD_A_COEFFICIENT + 2.0 * RTD_B_COEFFICIENT * temperature_estimate
        + 3.0 * RTD_C_COEFFICIENT * temp_squared
        - 200.0 * RTD_C_COEFFICIENT * temperature_estimate
        + 300.0 * RTD_C_COEFFICIENT * temp_squared)).

Definition function_value (r0 r t : float) : float := fst (evaluate r0 r t).
Definition derivative_value (r0 r t : float) : float := snd (evaluate r0 r t).

(** The locals of [RTD_CalculateTemperature] that the loop reads and
    writes. *)
Record locals : Type := mkLocals {
  temperature_estimate : float;
  new_temperature_estimate : float;
  iteration : Z;
  temperature : float
}.

(** One pass through the loop body.  [inl] is the exit through [break],
    [inr] the fall through to the next test of the loop condition. *)
Definition loop_body (resistance_at_zero resistance : float) (s : locals)
  : locals + locals :=
  let (function_value, derivative_value) :=
    evaluate resistance_at_zero resistance (temperature_estimate s) in
  let new_temperature_estimate :=
    temperature_estimate s - function_value / derivative_value in
  if fabs (new_temperature_estimate - temperature_estimate s) <? tolerance
  then
    inl (mkLocals (temperature_estimate s) new_temperature_estimate
                  (iteration s) new_temperature_estimate)
  else
    inr (mkLocals new_temperature_estimate new_temperature_estimate
                  (iteration s + 1)%Z (temperature s)).

(** [while (iteration < max_iterations) { ... }].  [fuel] bounds the number
    of passes; [while_loop_fuel] below shows that [max_iterations] passes
    are all the loop can make. *)
Fixpoint while_loop (fuel : nat) (resistance_at_zero resistance : float)
  (s : locals) : locals :=
  match fuel with
  | O => s
  | S fuel' =>
      if (iteration s <? max_iterations)%Z then
        match loop_body resistance_at_zero resistance s with
        | inl s' => s'
        | inr s' => while_loop fuel' resistance_at_zero resistance s'
        end
      else s
  end.

(** The locals when the function reaches its [return]. *)
Definition RTD_CalculateTemperature_locals (sensor_type : Z)
  (resistance initial_temperature_estimate : float) : locals :=
  let (resistance_at_zero, temperature) :=
    check_resistance sensor_type resistance in
  let s := mkLocals initial_temperature_estimate 0.0 0%Z temperature in
  if c_not temperature then
    while_loop (Z.to_nat max_iterations) resistance_at_zero resistance s
  else s.

Definition RTD_CalculateTemperature (sensor_type : Z)
  (resistance initial_temperature_estimate : float) : float :=
  temperature
    (RTD_CalculateTemperature_locals sensor_type resistance
       initial_temperature_estimate).

(** The Newton-Raphson update of the estimate [t], and the convergence test
    of the pass that starts at [t]; [loop_body_eq] below shows that they are
    what [loop_body] computes. *)
Definition newton_update (resistance_at_zero resistance t : float) : float :=
  t - function_value resistance_at_zero resistance t
      / derivative_value resistance_at_zero resistance t.

Definition converged (resistance_at_zero resistance t : float) : bool :=
  fabs (newton_update resistance_at_zero resistance t - t) <? tolerance.

(** How the loop can end: at the cap, with [temperature] untouched, or
    through [break] out of a pass that started at some estimate [t], with
    [temperature] the new estimate of that pass. *)
Inductive loop_exit (resistance_at_zero resistance : float)
  (s s' : locals) : Prop :=
| exit_cap :
    iteration s' = max_iterations ->
    temperature s' = temperature s ->
    loop_exit resistance_at_zero resistance s s'
| exit_break (t : float) :
    (iteration s <= iteration s' < max_iterations)%Z ->
    temperature_estimate s' = t ->
    converged resistance_at_zero resistance t = true ->
    temperature s' = newton_update resistance_at_zero resistance t ->
    loop_exit resistance_at_zero resistance s s'.

(** The test [if (!temperature)] that guards the loop, as a function of the
    arguments: whether the resistance passes the [switch]. *)
Definition accepts (sensor_type : Z) (resistance : float) : bool :=
  c_not (snd (check_resistance sensor_type resistance)).

(** ** The recognized sensor classes

    One row per [case] label of the two [switch] statements: sensor type,
    resistance at zero degrees, and the two bounds that the [case] of
    [RTD_CalculateTemperature] compares the resistance with. *)
Definition sensor_table : list (Z * float * float * float) :=
  [ (RTD_SENSOR_PT50,   50.0,   9.2,   195.3);
    (RTD_SENSOR_PT100,  100.0,  18.3,  390.6);
    (RTD_SENSOR_PT200,  200.0,  36.5,  781.3);
    (RTD_SENSOR_PT500,  500.0,  91.5,  1953.0);
    (RTD_SENSOR_PT1000, 1000.0, 182.5, 3906.5) ].

Definition recognized (sensor_type : Z) : Prop :=
  In sensor_type (map (fun row => fst (fst (fst row))) sensor_table).

(** The formulas of the specification, written as it words them. *)
Module Spec.

Definition A : float := 3.908302087e-3.
Definition B : float := -5.775000000e-7.
Definition C : float := -4.183010000e-12.

(** [R0 * (1 + A T + B T^2)] *)
Definition cvd_nonnegative (R0 T : float) : float :=
  R0 * (1 + A * T + B * (T * T)).

(** [R0 * (1 + A T + B T^2 + C (T - 100) T^3)] *)
Definition cvd_negative (R0 T : float) : float :=
  R0 * (1 + A * T + B * (T * T) + C * (T - 100) * (T * T * T)).

(** [R0 * (A + 2 B T)], the derivative of [cvd_nonnegative] in [T]. *)
Definition cvd_nonnegative_derivative (R0 T : float) : float :=
  R0 * (A + 2 * B * T).

(** [R0 * (A + 2 B T + C (4 T^3 - 300 T^2))], the derivative of
    [cvd_negative] in [T]. *)
Definition cvd_negative_derivative (R0 T : float) : float :=
  R0 * (A + 2 * B * T + C * (4 * (T * T * T) - 300 * (T * T))).

End Spec.

(** ** Sample temperatures for the round trip

    The quarter degrees from -200 to 850, each an exact binary64 number. *)
Definition quarter_degree (k : nat) : float :=
  of_uint63 (Uint63.of_Z (Z.of_nat k)) / 4 - 200.

Definition quarter_degrees : list float := map quarter_degree (seq 0 4201).

(** [RTD_CalculateTemperature] undoes [RTD_CalculateResistance] at [T]
    within [1e-6] when started from [guess] (or the forward conversion
    failed). *)
Definition round_trip_ok (sensor_type : Z) (T guess : float) : bool :=
  let resistance := RTD_CalculateResistance sensor_type T in
  (resistance =? RTD_CONVERSION_FAILED)
  || (fabs (RTD_CalculateTemperature sensor_type resistance guess - T)
      <? 1e-6).

(** ** Composition of the two functions *)

(** [RTD_CalculateResistance] accepts the temperature [T], and
    [RTD_CalculateTemperature] rejects the resistance it returns, whatever
    the initial estimate. *)
Definition forward_then_rejected (sensor_type : Z) (T : float) : Prop :=
  (RTD_CalculateResistance sensor_type T =? RTD_CONVERSION_FAILED) = false
  /\ forall g,
      RTD_CalculateTemperature sensor_type
        (RTD_CalculateResistance sensor_type T) g
      = RTD_CONVERSION_FAILED.

(** * Facts about binary64 numbers *)

Section FloatFacts.

Lemma SFcompare_antisym (x y : spec_float) :
  SFcompare y x = option_map CompOpp (SFcompare x y).
Proof.
  destruct x as [sx|sx| |sx mx ex], y as [sy|sy| |sy my ey]; simpl;
    try reflexivity;
    try (destruct sx; reflexivity);
    try (destruct sy; reflexivity);
    try (destruct sx, sy; reflexivity).
  change (Pos.compare_cont Eq) with Pos.compare.
  destruct sx, sy; simpl; try reflexivity;
    rewrite (Z.compare_antisym ex ey);
    destruct (ex ?= ey)%Z; simpl; try reflexivity;
    rewrite (Pos.compare_antisym mx my);
    destruct (mx ?= my)%positive; reflexivity.
Qed.

Lemma leb_true_ltb_false (a b : float) :
  (a <=? b) = true -> (b <? a) = false.
Proof.
  rewrite leb_spec, ltb_spec. unfold SFleb, SFltb.
  rewrite (SFcompare_antisym (Prim2SF a) (Prim2SF b)).
  destruct (SFcompare (Prim2SF a) (Prim2SF b)) as [[ | | ]|];
    simpl; congruence.
Qed.

Lemma ltb_true_leb_false (a b : float) :
  (a <? b) = true -> (b <=? a) = false.
Proof.
  rewrite leb_spec, ltb_spec. unfold SFleb, SFltb.
  rewrite (SFcompare_antisym (Prim2SF a) (Prim2SF b)).
  destruct (SFcompare (Prim2SF a) (Prim2SF b)) as [[ | | ]|];
    simpl; congruence.
Qed.

(** Two numbers that a third compares with are not NaN, and so are
    ordered one way or the other. *)
Lemma leb_total_of_leb (c a b : float) :
  (c <=? a) = true -> (b <=? b) = true ->
  (b <=? a) = true \/ (a <? b) = true.
Proof.
  rewrite !leb_spec, ltb_spec. unfold SFleb, SFltb.
  rewrite (SFcompare_antisym (Prim2SF b) (Prim2SF a)).
  destruct (Prim2SF a) as [sa|sa| |sa ma ea],
           (Prim2SF b) as [sb|sb| |sb mb eb],
           (Prim2SF c) as [sc|sc| |sc mc ec];
    try discriminate; intros _ _;
    match goal with
    | |- context [SFcompare ?u ?v] =>
        destruct (SFcompare u v) as [[ | | ]|] eqn:E
    end; simpl; auto; simpl in E; try discriminate;
    destruct sa; discriminate.
Qed.

Lemma is_nan_eq (x : float) : is_nan x = true -> x = nan.
Proof.
  intros H. apply Prim2SF_inj.
  unfold is_nan in H. rewrite eqb_spec in H. unfold SFeqb in H.
  destruct (Prim2SF x) as [s|s| |s m e]; simpl in H |- *;
    try reflexivity; try (destruct s; discriminate).
  destruct s; rewrite Z.compare_refl, Pos.compare_cont_refl in H;
    discriminate.
Qed.

Lemma sub_nan_l (x : float) : nan - x = nan.
Proof. apply Prim2SF_inj. rewrite sub_spec. reflexivity. Qed.

Lemma div_nan_r (x : float) : x / nan = nan.
Proof.
  apply Prim2SF_inj. rewrite div_spec.
  change (Prim2SF nan) with S754_nan.
  destruct (Prim2SF x); reflexivity.
Qed.

(** A number that is not finite is NaN or one of the two infinities. *)
Lemma not_finite_cases (x : float) :
  is_finite x = false -> x = nan \/ x = infinity \/ x = neg_infinity.
Proof.
  intros H. rewrite <- (SF2Prim_Prim2SF x).
  unfold is_finite, is_nan, is_infinity in H.
  rewrite !eqb_spec, abs_spec in H.
  change (Prim2SF infinity) with (S754_infinity false) in H.
  destruct (Prim2SF x) as [s|s| |s m e].
  - destruct s; discriminate H.
  - destruct s; [ right; right | right; left ]; reflexivity.
  - left; reflexivity.
  - exfalso. unfold SFeqb in H. simpl in H.
    destruct s; rewrite Z.compare_refl, Pos.compare_cont_refl in H;
      discriminate H.
Qed.

(** Only a finite number is within a tolerance of another number. *)
Lemma close_is_finite (x t : float) :
  (fabs (x - t) <? tolerance) = true -> is_finite x = true.
Proof.
  intros H. destruct (is_finite x) eqn:Hx; [ reflexivity | exfalso ].
  unfold fabs in H. rewrite ltb_spec, abs_spec, sub_spec in H.
  destruct (not_finite_cases x Hx) as [-> | [-> | ->]].
  - discriminate H.
  - change (Prim2SF infinity) with (S754_infinity false) in H.
    destruct (Prim2SF t) as [[ | ]|[ | ]| |[ | ] m e]; discriminate H.
  - change (Prim2SF neg_infinity) with (S754_infinity true) in H.
    destruct (Prim2SF t) as [[ | ]|[ | ]| |[ | ] m e]; discriminate H.
Qed.

End FloatFacts.

(** * The forward converter *)

(** Case analysis on a row of [sensor_table]. *)
Ltac each_row H :=
  unfold sensor_table in H; simpl in H;
  repeat (destruct H as [H | H]; [injection H as <- <- <- <- | ]);
  [ .. | contradiction ].

Ltac each_recognized H :=
  unfold recognized, sensor_table in H; simpl in H;
  repeat (destruct H as [H | H]; [subst | ]);
  [ .. | contradiction ].

Lemma resistance_at_zero_of_row sensor_type r0 lo hi :
  In (sensor_type, r0, lo, hi) sensor_table ->
  resistance_at_zero_of sensor_type = r0 /\ c_not r0 = false.
Proof. intros H. each_row H; split; reflexivity. Qed.

Lemma row_recognized sensor_type r0 lo hi :
  In (sensor_type, r0, lo, hi) sensor_table -> recognized sensor_type.
Proof.
  intros H.
  exact (in_map (fun row => fst (fst (fst row))) _ _ H).
Qed.

Lemma recognized_row sensor_type :
  recognized sensor_type ->
  exists r0 lo hi, In (sensor_type, r0, lo, hi) sensor_table.
Proof.
  unfold recognized. rewrite in_map_iff.
  intros [[[[st r0] lo] hi] [E H]]. simpl in E. subst st. eauto.
Qed.

(** In range, the function is the polynomial of the sign of the
    temperature. *)
Lemma RTD_CalculateResistance_in_range sensor_type r0 lo hi T :
  In (sensor_type, r0, lo, hi) sensor_table ->
  (T <? -200.5) = false -> gtb T 850.5 = false ->
  RTD_CalculateResistance sensor_type T =
  if geb T 0 then Spec.cvd_nonnegative r0 T else Spec.cvd_negative r0 T.
Proof.
  intros Hrow Hlo Hhi. unfold RTD_CalculateResistance.
  rewrite Hlo, Hhi. simpl orb. cbv iota.
  destruct (resistance_at_zero_of_row _ _ _ _ Hrow) as [-> ->].
  reflexivity.
Qed.

(** C1.  For a recognized sensor class with reference resistance [R0] and a
    temperature [T] with [-200.5 <= T <= 850.5], [RTD_CalculateResistance]
    returns [R0 * (1 + A T + B T^2)] when [T >= 0] and
    [R0 * (1 + A T + B T^2 + C (T - 100) T^3)] when [T < 0]; one of the two
    cases applies.  The arithmetic is binary64 arithmetic. *)
Theorem C1_forward_polynomial sensor_type r0 lo hi T :
  In (sensor_type, r0, lo, hi) sensor_table ->
  (-200.5 <=? T) = true -> (T <=? 850.5) = true ->
  (geb T 0 = true ->
   RTD_CalculateResistance sensor_type T = Spec.cvd_nonnegative r0 T)
  /\ ((T <? 0) = true ->
      RTD_CalculateResistance sensor_type T = Spec.cvd_negative r0 T)
  /\ (geb T 0 = true \/ (T <? 0) = true).
Proof.
  intros Hrow Hlo Hhi.
  pose proof (leb_true_ltb_false _ _ Hlo) as Hlo'.
  pose proof (leb_true_ltb_false _ _ Hhi) as Hhi'.
  rewrite (RTD_CalculateResistance_in_range _ _ _ _ _ Hrow Hlo' Hhi').
  repeat split.
  - intros ->. reflexivity.
  - intros Hneg. unfold geb.
    rewrite (ltb_true_leb_false _ _ Hneg). reflexivity.
  - unfold geb. apply (leb_total_of_leb (-200.5)); [exact Hlo | reflexivity].
Qed.

Lemma C1_forward_polynomial_witness :
  RTD_CalculateResistance RTD_SENSOR_PT100 25 = Spec.cvd_nonnegative 100 25
  /\ RTD_CalculateResistance RTD_SENSOR_PT100 (-50)
     = Spec.cvd_negative 100 (-50).
Proof.
  split.
  - apply (C1_forward_polynomial RTD_SENSOR_PT100 100 18.3 390.6 25);
      [ simpl; auto | reflexivity | reflexivity | reflexivity ].
  - apply (C1_forward_polynomial RTD_SENSOR_PT100 100 18.3 390.6 (-50));
      [ simpl; auto | reflexivity | reflexivity | reflexivity ].
Defined.

(** A result that the caller's test [x == RTD_CONVERSION_FAILED] rejects is
    not the failure value. *)
Lemma eqb_failed_false (x : float) :
  (x =? RTD_CONVERSION_FAILED) = false -> x <> RTD_CONVERSION_FAILED.
Proof. intros H E. rewrite E in H. discriminate H. Qed.

Lemma RTD_CalculateResistance_out_of_range sensor_type T :
  (T <? -200.5) = true \/ gtb T 850.5 = true ->
  RTD_CalculateResistance sensor_type T = RTD_CONVERSION_FAILED.
Proof.
  intros [H | H]; unfold RTD_CalculateResistance; rewrite H;
    [ | rewrite orb_true_r ]; reflexivity.
Qed.

(** C7.  [RTD_CalculateResistance] returns the failure value for every
    temperature below -200.5 or above 850.5, whatever the sensor type (so at
    -200.6 and 850.6 for PT100), and for a recognized class it returns
    something else than the failure value at -200.5 and at 850.5. *)
Theorem C7_temperature_range :
  (forall sensor_type T,
      (T <? -200.5) = true \/ gtb T 850.5 = true ->
      RTD_CalculateResistance sensor_type T = RTD_CONVERSION_FAILED)
  /\ RTD_CalculateResistance RTD_SENSOR_PT100 (-200.6) = RTD_CONVERSION_FAILED
  /\ RTD_CalculateResistance RTD_SENSOR_PT100 850.6 = RTD_CONVERSION_FAILED
  /\ (forall sensor_type,
         recognized sensor_type ->
         (RTD_CalculateResistance sensor_type (-200.5)
          =? RTD_CONVERSION_FAILED) = false
         /\ (RTD_CalculateResistance sensor_type 850.5
             =? RTD_CONVERSION_FAILED) = false).
Proof.
  split; [ exact RTD_CalculateResistance_out_of_range | ].
  split; [ reflexivity | ].
  split; [ reflexivity | ].
  intros sensor_type H. each_recognized H; split; reflexivity.
Qed.

Lemma C7_temperature_range_witness :
  RTD_CalculateResistance RTD_SENSOR_PT500 (-273.15) = RTD_CONVERSION_FAILED
  /\ RTD_CalculateResistance RTD_SENSOR_PT500 1000 = RTD_CONVERSION_FAILED
  /\ (RTD_CalculateResistance RTD_SENSOR_PT100 (-200.5)
      =? RTD_CONVERSION_FAILED) = false
  /\ (RTD_CalculateResistance RTD_SENSOR_PT100 850.5
      =? RTD_CONVERSION_FAILED) = false.
Proof.
  destruct C7_temperature_range as (Hout & _ & _ & Hin).
  split; [ apply Hout; left; reflexivity | ].
  split; [ apply Hout; right; reflexivity | ].
  apply Hin. unfold recognized. simpl. auto.
Defined.

(** A sensor type outside the five [case] labels takes the [default]
    branch of both [switch] statements. *)
Lemma unrecognized_default sensor_type :
  ~ recognized sensor_type ->
  resistance_at_zero_of sensor_type = 0
  /\ forall resistance,
      check_resistance sensor_type resistance = (0, RTD_CONVERSION_FAILED).
Proof.
  intros H. unfold recognized in H. simpl in H.
  assert (H50 : (sensor_type =? RTD_SENSOR_PT50)%Z = false)
    by (apply Z.eqb_neq; intros E; apply H; auto).
  assert (H100 : (sensor_type =? RTD_SENSOR_PT100)%Z = false)
    by (apply Z.eqb_neq; intros E; apply H; auto).
  assert (H200 : (sensor_type =? RTD_SENSOR_PT200)%Z = false)
    by (apply Z.eqb_neq; intros E; apply H; auto 6).
  assert (H500 : (sensor_type =? RTD_SENSOR_PT500)%Z = false)
    by (apply Z.eqb_neq; intros E; apply H; auto 6).
  assert (H1000 : (sensor_type =? RTD_SENSOR_PT1000)%Z = false)
    by (apply Z.eqb_neq; intros E; apply H; auto 7).
  unfold resistance_at_zero_of, check_resistance.
  rewrite H50, H100, H200, H500, H1000. split; reflexivity.
Qed.

(** C8.  For a sensor type that is none of the five recognized values, both
    functions return the failure value, whatever the other arguments. *)
Theorem C8_unknown_class sensor_type :
  ~ recognized sensor_type ->
  (forall temperature,
      RTD_CalculateResistance sensor_type temperature
      = RTD_CONVERSION_FAILED)
  /\ (forall resistance initial_temperature_estimate,
         RTD_CalculateTemperature sensor_type resistance
           initial_temperature_estimate
         = RTD_CONVERSION_FAILED).
Proof.
  intros H. destruct (unrecognized_default _ H) as [H0 Hc]. split.
  - intros T. unfold RTD_CalculateResistance. rewrite H0.
    destruct ((T <? -200.5) || gtb T 850.5); reflexivity.
  - intros R g. unfold RTD_CalculateTemperature,
      RTD_CalculateTemperature_locals.
    rewrite Hc. reflexivity.
Qed.

Lemma C8_unknown_class_witness :
  RTD_CalculateResistance 9999 25 = RTD_CONVERSION_FAILED
  /\ RTD_CalculateTemperature 9999 100 25 = RTD_CONVERSION_FAILED.
Proof.
  assert (H : ~ recognized 9999).
  { unfold recognized. simpl. intros H.
    repeat (destruct H as [H | H]; [ discriminate H | ]). exact H. }
  destruct (C8_unknown_class 9999 H) as [Hr Ht].
  split; [ apply Hr | apply Ht ].
Defined.

(** C10.  With a NaN temperature both range comparisons are false, and for
    a recognized class [RTD_CalculateResistance] returns NaN, not the
    failure value. *)
Theorem C10_nan_temperature sensor_type T :
  recognized sensor_type -> is_nan T = true ->
  (T <? -200.5) = false
  /\ gtb T 850.5 = false
  /\ is_nan (RTD_CalculateResistance sensor_type T) = true
  /\ (RTD_CalculateResistance sensor_type T =? RTD_CONVERSION_FAILED) = false
  /\ RTD_CalculateResistance sensor_type T <> RTD_CONVERSION_FAILED.
Proof.
  intros H Hnan. rewrite (is_nan_eq T Hnan).
  split; [ reflexivity | ]. split; [ reflexivity | ].
  each_recognized H;
    (split; [ reflexivity | ]; split; [ reflexivity | ];
     apply eqb_failed_false; reflexivity).
Qed.

Lemma C10_nan_temperature_witness :
  is_nan (RTD_CalculateResistance RTD_SENSOR_PT100 nan) = true
  /\ RTD_CalculateResistance RTD_SENSOR_PT100 nan <> RTD_CONVERSION_FAILED.
Proof.
  assert (H : recognized RTD_SENSOR_PT100)
    by (unfold recognized; simpl; auto).
  destruct (C10_nan_temperature RTD_SENSOR_PT100 nan H eq_refl)
    as (_ & _ & Hn & _ & Hf).
  split; assumption.
Defined.

(** * The inverse solver *)

(** ** The loop *)

Section Loop.

Variables resistance_at_zero resistance : float.

Lemma loop_body_eq (s : locals) :
  loop_body resistance_at_zero resistance s =
  let t := temperature_estimate s in
  let t' := newton_update resistance_at_zero resistance t in
  if converged resistance_at_zero resistance t then
    inl (mkLocals t t' (iteration s) t')
  else
    inr (mkLocals t' t' (iteration s + 1)%Z (temperature s)).
Proof.
  unfold loop_body, converged, newton_update, function_value,
    derivative_value.
  destruct (evaluate resistance_at_zero resistance (temperature_estimate s)).
  reflexivity.
Qed.

Lemma loop_body_break (s s' : locals) :
  loop_body resistance_at_zero resistance s = inl s' ->
  let t := temperature_estimate s in
  converged resistance_at_zero resistance t = true
  /\ temperature s' = newton_update resistance_at_zero resistance t
  /\ new_temperature_estimate s'
     = newton_update resistance_at_zero resistance t
  /\ temperature_estimate s' = t
  /\ iteration s' = iteration s.
Proof.
  rewrite loop_body_eq. cbv zeta.
  destruct (converged _ _ (temperature_estimate s)); [ | discriminate ].
  intros [= <-]. simpl. auto.
Qed.

Lemma loop_body_continue (s s' : locals) :
  loop_body resistance_at_zero resistance s = inr s' ->
  let t := temperature_estimate s in
  converged resistance_at_zero resistance t = false
  /\ temperature s' = temperature s
  /\ temperature_estimate s'
     = newton_update resistance_at_zero resistance t
  /\ new_temperature_estimate s'
     = newton_update resistance_at_zero resistance t
  /\ iteration s' = (iteration s + 1)%Z.
Proof.
  rewrite loop_body_eq. cbv zeta.
  destruct (converged _ _ (temperature_estimate s)); [ discriminate | ].
  intros [= <-]. simpl. auto.
Qed.

Lemma while_loop_S (fuel : nat) (s : locals) :
  while_loop (S fuel) resistance_at_zero resistance s =
  if (iteration s <? max_iterations)%Z then
    match loop_body resistance_at_zero resistance s with
    | inl s' => s'
    | inr s' => while_loop fuel resistance_at_zero resistance s'
    end
  else s.
Proof. reflexivity. Qed.

(** The loop makes at most [max_iterations - iteration] passes: fuel beyond
    that is never used. *)
Lemma while_loop_fuel (fuel : nat) (s : locals) :
  (max_iterations - iteration s <= Z.of_nat fuel)%Z ->
  while_loop (S fuel) resistance_at_zero resistance s
  = while_loop fuel resistance_at_zero resistance s.
Proof.
  revert s. induction fuel as [ | fuel IH ]; intros s Hle.
  - rewrite while_loop_S.
    destruct (iteration s <? max_iterations)%Z eqn:E;
      [ apply Z.ltb_lt in E; lia | reflexivity ].
  - rewrite (while_loop_S (S fuel)), (while_loop_S fuel).
    destruct (iteration s <? max_iterations)%Z; [ | reflexivity ].
    destruct (loop_body resistance_at_zero resistance s) as [s' | s'] eqn:E;
      [ reflexivity | ].
    apply IH. apply loop_body_continue in E.
    destruct E as (_ & _ & _ & _ & ->). lia.
Qed.

Lemma while_loop_more_fuel (extra fuel : nat) (s : locals) :
  (max_iterations - iteration s <= Z.of_nat fuel)%Z ->
  while_loop (extra + fuel) resistance_at_zero resistance s
  = while_loop fuel resistance_at_zero resistance s.
Proof.
  intros Hle. induction extra as [ | extra IH ]; [ reflexivity | ].
  simpl Nat.add. rewrite while_loop_fuel; [ exact IH | lia ].
Qed.

(** Entered with the fuel the counter leaves, the loop ends in one of the
    two ways of [loop_exit]. *)
Lemma while_loop_exit (fuel : nat) (s : locals) :
  (iteration s + Z.of_nat fuel = max_iterations)%Z ->
  loop_exit resistance_at_zero resistance s
    (while_loop fuel resistance_at_zero resistance s).
Proof.
  revert s. induction fuel as [ | fuel IH ]; intros s Hfuel.
  - simpl. apply exit_cap; [ lia | reflexivity ].
  - rewrite while_loop_S.
    destruct (iteration s <? max_iterations)%Z eqn:Hguard;
      [ | apply Z.ltb_ge in Hguard; lia ].
    apply Z.ltb_lt in Hguard.
    destruct (loop_body resistance_at_zero resistance s) as [s' | s'] eqn:E.
    + apply loop_body_break in E.
      destruct E as (Hc & Ht & _ & Hte & Hit).
      apply (exit_break _ _ s s' (temperature_estimate s)); auto. lia.
    + apply loop_body_continue in E.
      destruct E as (_ & Ht & _ & _ & Hit).
      destruct (IH s') as [Hcap Htemp | t Hrange Hte Hc Htemp]; [ lia | | ].
      * apply exit_cap; congruence.
      * apply (exit_break _ _ s _ t); auto. lia.
Qed.

End Loop.

(** ** Validation *)

Lemma check_resistance_row sensor_type r0 lo hi resistance :
  In (sensor_type, r0, lo, hi) sensor_table ->
  check_resistance sensor_type resistance =
  (r0, if (resistance <? lo) || gtb resistance hi
       then RTD_CONVERSION_FAILED else 0).
Proof. intros H. each_row H; reflexivity. Qed.

Lemma accepts_row sensor_type r0 lo hi resistance :
  In (sensor_type, r0, lo, hi) sensor_table ->
  accepts sensor_type resistance
  = negb ((resistance <? lo) || gtb resistance hi).
Proof.
  intros H. unfold accepts. rewrite (check_resistance_row _ _ _ _ _ H).
  destruct ((resistance <? lo) || gtb resistance hi); reflexivity.
Qed.

Lemma RTD_CalculateTemperature_rejected sensor_type resistance g :
  accepts sensor_type resistance = false ->
  exists r0,
    RTD_CalculateTemperature_locals sensor_type resistance g
    = mkLocals g 0 0 (snd (check_resistance sensor_type resistance))
    /\ check_resistance sensor_type resistance
       = (r0, RTD_CONVERSION_FAILED).
Proof.
  unfold accepts, RTD_CalculateTemperature_locals.
  destruct (check_resistance sensor_type resistance) as [r0 t] eqn:E.
  simpl. intros H. rewrite H. exists r0. split; [ reflexivity | ].
  revert E H. unfold check_resistance.
  repeat match goal with
         | |- context [if ?b then _ else _] => destruct b
         end; intros [= <- <-] H; solve [ reflexivity | discriminate H ].
Qed.

Lemma RTD_CalculateTemperature_accepted sensor_type r0 lo hi resistance g :
  In (sensor_type, r0, lo, hi) sensor_table ->
  accepts sensor_type resistance = true ->
  RTD_CalculateTemperature_locals sensor_type resistance g
  = while_loop (Z.to_nat max_iterations) r0 resistance (mkLocals g 0 0 0).
Proof.
  intros H. rewrite (accepts_row _ _ _ _ _ H).
  unfold RTD_CalculateTemperature_locals.
  rewrite (check_resistance_row _ _ _ _ _ H).
  destruct ((resistance <? lo) || gtb resistance hi); [ discriminate | ].
  reflexivity.
Qed.

(** Every call with a recognized class and an accepted resistance ends in
    one of the two ways of [loop_exit]. *)
Lemma RTD_CalculateTemperature_exit sensor_type r0 lo hi resistance g :
  In (sensor_type, r0, lo, hi) sensor_table ->
  accepts sensor_type resistance = true ->
  loop_exit r0 resistance (mkLocals g 0 0 0)
    (RTD_CalculateTemperature_locals sensor_type resistance g).
Proof.
  intros H Hacc.
  rewrite (RTD_CalculateTemperature_accepted _ _ _ _ _ _ H Hacc).
  apply while_loop_exit. reflexivity.
Qed.

(** C5.  For a recognized class, a resistance below the class minimum or
    above the class maximum makes [RTD_CalculateTemperature] return the
    failure value without a pass through the loop: the locals reach the
    [return] as they were initialised, the counter at zero. *)
Theorem C5_out_of_band sensor_type r0 lo hi resistance g :
  In (sensor_type, r0, lo, hi) sensor_table ->
  (resistance <? lo) = true \/ gtb resistance hi = true ->
  RTD_CalculateTemperature sensor_type resistance g = RTD_CONVERSION_FAILED
  /\ RTD_CalculateTemperature_locals sensor_type resistance g
     = mkLocals g 0 0 RTD_CONVERSION_FAILED.
Proof.
  intros Hrow Hband.
  assert (Hacc : accepts sensor_type resistance = false).
  { rewrite (accepts_row _ _ _ _ _ Hrow).
    destruct Hband as [-> | ->]; [ | rewrite orb_true_r ]; reflexivity. }
  destruct (RTD_CalculateTemperature_rejected _ _ g Hacc) as (r & Hl & Hc).
  unfold RTD_CalculateTemperature. rewrite Hl, Hc. split; reflexivity.
Qed.

Lemma C5_out_of_band_witness :
  RTD_CalculateTemperature RTD_SENSOR_PT100 5.0 25 = RTD_CONVERSION_FAILED
  /\ RTD_CalculateTemperature_locals RTD_SENSOR_PT100 5.0 25
     = mkLocals 25 0 0 RTD_CONVERSION_FAILED.
Proof.
  apply (C5_out_of_band RTD_SENSOR_PT100 100 18.3 390.6 5.0 25).
  - simpl. auto.
  - left. reflexivity.
Defined.

(** ** The iteration cap *)

(** When the counter reaches [max_iterations], [temperature] still holds
    the [0.0] it was initialised with, and that is what is returned. *)
Lemma cap_returns_zero sensor_type r0 lo hi resistance g :
  In (sensor_type, r0, lo, hi) sensor_table ->
  accepts sensor_type resistance = true ->
  iteration (RTD_CalculateTemperature_locals sensor_type resistance g)
  = max_iterations ->
  RTD_CalculateTemperature sensor_type resistance g = 0.
Proof.
  intros Hrow Hacc Hcap. unfold RTD_CalculateTemperature.
  destruct (RTD_CalculateTemperature_exit _ _ _ _ _ g Hrow Hacc)
    as [_ Htemp | t Hrange _ _ _]; [ exact Htemp | lia ].
Qed.

(** C4.  [RTD_CalculateTemperature (PT100, 100.0, 3000.0)]: the resistance
    is accepted, the loop runs to the cap of 1000 passes, the last estimate
    computed is NaN, and the value returned is [0.0], which is neither that
    estimate nor the failure value. *)
Theorem C4_cap_returns_initial_zero :
  let s := RTD_CalculateTemperature_locals RTD_SENSOR_PT100 100 3000 in
  accepts RTD_SENSOR_PT100 100 = true
  /\ iteration s = max_iterations
  /\ is_nan (new_temperature_estimate s) = true
  /\ temperature_estimate s = new_temperature_estimate s
  /\ RTD_CalculateTemperature RTD_SENSOR_PT100 100 3000 = 0
  /\ RTD_CalculateTemperature RTD_SENSOR_PT100 100 3000
     <> new_temperature_estimate s
  /\ RTD_CalculateTemperature RTD_SENSOR_PT100 100 3000
     <> RTD_CONVERSION_FAILED.
Proof.
  vm_compute. repeat split; try reflexivity; discriminate.
Qed.

(** ** Estimates that are not finite *)

(** From an estimate that is NaN or infinite the update is NaN and the
    convergence test fails, whatever the resistance. *)
Lemma newton_update_not_finite sensor_type r0 lo hi resistance t :
  In (sensor_type, r0, lo, hi) sensor_table ->
  is_finite t = false ->
  newton_update r0 resistance t = nan
  /\ converged r0 resistance t = false.
Proof.
  intros Hrow Ht.
  assert (Hupd : newton_update r0 resistance t = nan).
  { destruct (not_finite_cases t Ht) as [-> | [-> | ->]]; each_row Hrow;
      unfold newton_update, function_value, derivative_value, evaluate;
      cbn [fst snd];
      match goal with
      | |- context [if ?b then _ else _] =>
          let v := eval vm_compute in b in change b with v
      end; cbv iota; cbn [fst snd];
      repeat match goal with
             | |- context [?a - resistance] =>
                 let v := eval vm_compute in a in change a with v
             | |- context [_ / ?d] =>
                 let v := eval vm_compute in d in progress change d with v
             end;
      rewrite ?sub_nan_l, ?div_nan_r; reflexivity. }
  split; [ exact Hupd | ].
  unfold converged. rewrite Hupd. rewrite sub_nan_l. reflexivity.
Qed.

(** Once an estimate is not finite the loop runs to the cap and leaves
    [temperature] as it found it. *)
Lemma while_loop_not_finite sensor_type r0 lo hi resistance fuel s :
  In (sensor_type, r0, lo, hi) sensor_table ->
  is_finite (temperature_estimate s) = false ->
  (iteration s + Z.of_nat fuel = max_iterations)%Z ->
  let s' := while_loop fuel r0 resistance s in
  iteration s' = max_iterations /\ temperature s' = temperature s.
Proof.
  intros Hrow. revert s. induction fuel as [ | fuel IH ]; intros s Ht Hfuel.
  - simpl. split; [ lia | reflexivity ].
  - cbv zeta. rewrite while_loop_S.
    destruct (iteration s <? max_iterations)%Z eqn:Hguard;
      [ | apply Z.ltb_ge in Hguard; lia ].
    rewrite loop_body_eq. cbv zeta.
    destruct (newton_update_not_finite _ _ _ _ resistance _ Hrow Ht)
      as [Hupd ->].
    rewrite Hupd.
    destruct (IH (mkLocals nan nan (iteration s + 1)%Z (temperature s)))
      as [Hit Htemp]; [ reflexivity | simpl; lia | ].
    split; assumption.
Qed.

(** ** What an accepted call returns *)

(** With a recognized class and an accepted resistance the value returned
    is finite, whatever the estimates were on the way: it is [0.0] at the
    cap, and otherwise an update that passed the convergence test. *)
Lemma RTD_CalculateTemperature_finite sensor_type r0 lo hi resistance g :
  In (sensor_type, r0, lo, hi) sensor_table ->
  accepts sensor_type resistance = true ->
  is_finite (RTD_CalculateTemperature sensor_type resistance g) = true.
Proof.
  intros Hrow Hacc. unfold RTD_CalculateTemperature.
  destruct (RTD_CalculateTemperature_exit _ _ _ _ _ g Hrow Hacc)
    as [_ Htemp | t _ _ Hconv Htemp]; rewrite Htemp.
  - reflexivity.
  - exact (close_is_finite _ _ Hconv).
Qed.

(** The value returned by an accepted call: [0.0] when the counter reached
    the cap, and otherwise the update of the last estimate, which passed
    the convergence test.  The loop has no other assignment to
    [temperature]. *)
Lemma accepted_call_returns sensor_type r0 lo hi resistance g :
  In (sensor_type, r0, lo, hi) sensor_table ->
  accepts sensor_type resistance = true ->
  let s := RTD_CalculateTemperature_locals sensor_type resistance g in
  (iteration s = max_iterations
   /\ RTD_CalculateTemperature sensor_type resistance g = 0)
  \/ ((0 <= iteration s < max_iterations)%Z
      /\ converged r0 resistance (temperature_estimate s) = true
      /\ RTD_CalculateTemperature sensor_type resistance g
         = newton_update r0 resistance (temperature_estimate s)).
Proof.
  intros Hrow Hacc. cbv zeta. unfold RTD_CalculateTemperature.
  destruct (RTD_CalculateTemperature_exit _ _ _ _ _ g Hrow Hacc)
    as [Hcap Htemp | t Hrange Hte Hconv Htemp].
  - left. auto.
  - right. subst t. simpl in Hrange. auto.
Qed.

(** C9.  The division [function_value / derivative_value] is not guarded,
    and no pass of the loop turns an estimate into the failure value.

    (1) There is a recognized class, an accepted resistance and a finite
    initial estimate [T >= 0] with [A + 2 B T = 0] (in binary64;
    [T = 3383.811330735931]) for which the first pass of the loop computes a
    positive [function_value] and a zero [derivative_value], divides the one
    by the other, takes the infinite result as the next estimate and goes
    on; the call ends at the cap with NaN estimates and returns [0.0].

    (2) Every call with a recognized class and an accepted resistance
    returns [0.0] with the counter at the cap, or the update of the last
    estimate with that update within [tolerance] of the estimate; the value
    returned is finite; and the failure value can only be returned as such
    a converged update.

    (3) A call that reaches the cap returns [0.0], not the failure value.

    (4) From an estimate that is NaN or infinite the loop runs to the cap
    with [temperature] untouched, and a call with such an initial estimate
    returns [0.0].

    (5) Finite estimates that run away are not reported either: for every
    recognized class, the resistance [R0] with the initial estimate [-1e60]
    or [3000] reaches the cap and returns [0.0]. *)
Theorem C9_unguarded_division :
  (exists sensor_type r0 lo hi resistance T,
      In (sensor_type, r0, lo, hi) sensor_table
      /\ accepts sensor_type resistance = true
      /\ geb T 0 = true
      /\ is_finite T = true
      /\ RTD_A_COEFFICIENT + 2 * RTD_B_COEFFICIENT * T = 0
      /\ (0 <? fst (evaluate r0 resistance T)) = true
      /\ snd (evaluate r0 resistance T) = 0
      /\ derivative_value r0 resistance T = 0
      /\ is_infinity (function_value r0 resistance T
                      / derivative_value r0 resistance T) = true
      /\ is_finite (newton_update r0 resistance T) = false
      /\ loop_body r0 resistance (mkLocals T 0 0 0)
         = inr (mkLocals neg_infinity neg_infinity 1 0)
      /\ RTD_CalculateTemperature_locals sensor_type resistance T
         = mkLocals nan nan max_iterations 0
      /\ RTD_CalculateTemperature sensor_type resistance T = 0)
  /\ (forall sensor_type r0 lo hi resistance g,
         In (sensor_type, r0, lo, hi) sensor_table ->
         accepts sensor_type resistance = true ->
         let s := RTD_CalculateTemperature_locals sensor_type resistance g in
         ((iteration s = max_iterations
           /\ RTD_CalculateTemperature sensor_type resistance g = 0)
          \/ ((0 <= iteration s < max_iterations)%Z
              /\ converged r0 resistance (temperature_estimate s) = true
              /\ RTD_CalculateTemperature sensor_type resistance g
                 = newton_update r0 resistance (temperature_estimate s)))
         /\ is_finite (RTD_CalculateTemperature sensor_type resistance g)
            = true
         /\ (RTD_CalculateTemperature sensor_type resistance g
             = RTD_CONVERSION_FAILED ->
             converged r0 resistance (temperature_estimate s) = true
             /\ newton_update r0 resistance (temperature_estimate s)
                = RTD_CONVERSION_FAILED))
  /\ (forall sensor_type r0 lo hi resistance g,
         In (sensor_type, r0, lo, hi) sensor_table ->
         accepts sensor_type resistance = true ->
         iteration (RTD_CalculateTemperature_locals sensor_type resistance g)
         = max_iterations ->
         RTD_CalculateTemperature sensor_type resistance g = 0
         /\ RTD_CalculateTemperature sensor_type resistance g
            <> RTD_CONVERSION_FAILED)
  /\ (forall sensor_type r0 lo hi resistance fuel s,
         In (sensor_type, r0, lo, hi) sensor_table ->
         is_finite (temperature_estimate s) = false ->
         (iteration s + Z.of_nat fuel = max_iterations)%Z ->
         iteration (while_loop fuel r0 resistance s) = max_iterations
         /\ temperature (while_loop fuel r0 resistance s) = temperature s)
  /\ (forall sensor_type r0 lo hi resistance g,
         In (sensor_type, r0, lo, hi) sensor_table ->
         accepts sensor_type resistance = true ->
         is_finite g = false ->
         RTD_CalculateTemperature sensor_type resistance g = 0
         /\ iteration
              (RTD_CalculateTemperature_locals sensor_type resistance g)
            = max_iterations)
  /\ (forall sensor_type r0 lo hi,
         In (sensor_type, r0, lo, hi) sensor_table ->
         accepts sensor_type r0 = true
         /\ RTD_CalculateTemperature_locals sensor_type r0 (-1e60)
            = mkLocals nan nan max_iterations 0
         /\ RTD_CalculateTemperature sensor_type r0 (-1e60) = 0
         /\ RTD_CalculateTemperature_locals sensor_type r0 3000
            = mkLocals nan nan max_iterations 0
         /\ RTD_CalculateTemperature sensor_type r0 3000 = 0).
Proof.
  split; [ | split; [ | split; [ | split; [ | split ] ] ] ].
  - exists RTD_SENSOR_PT100, 100, 18.3, 390.6, 100, 0x1.a6f9f66be0220p+11.
    split; [ simpl; auto | ].
    vm_compute. repeat split; reflexivity.
  - intros sensor_type r0 lo hi resistance g Hrow Hacc. cbv zeta.
    pose proof (accepted_call_returns _ _ _ _ _ g Hrow Hacc) as Hret.
    cbv zeta in Hret.
    split; [ exact Hret | ].
    split; [ exact (RTD_CalculateTemperature_finite _ _ _ _ _ g Hrow Hacc) | ].
    intros Hfail.
    destruct Hret as [[_ Hzero] | (_ & Hconv & Hupd)].
    + rewrite Hzero in Hfail. discriminate Hfail.
    + split; [ exact Hconv | ]. rewrite <- Hupd. exact Hfail.
  - intros sensor_type r0 lo hi resistance g Hrow Hacc Hcap.
    rewrite (cap_returns_zero _ _ _ _ _ _ Hrow Hacc Hcap).
    split; [ reflexivity | discriminate ].
  - intros sensor_type r0 lo hi resistance fuel s Hrow Ht Hfuel.
    exact (while_loop_not_finite _ _ _ _ resistance fuel s Hrow Ht Hfuel).
  - intros sensor_type r0 lo hi resistance g Hrow Hacc Hg.
    unfold RTD_CalculateTemperature.
    rewrite (RTD_CalculateTemperature_accepted _ _ _ _ _ g Hrow Hacc).
    destruct (while_loop_not_finite _ _ _ _ resistance
                (Z.to_nat max_iterations) (mkLocals g 0 0 0) Hrow Hg
                eq_refl) as [Hit Htemp].
    split; [ exact Htemp | exact Hit ].
  - intros sensor_type r0 lo hi Hrow.
    each_row Hrow; vm_compute; repeat split; reflexivity.
Qed.

Lemma C9_unguarded_division_witness :
  RTD_CalculateTemperature RTD_SENSOR_PT100 100 infinity = 0
  /\ RTD_CalculateTemperature RTD_SENSOR_PT100 100 3000 = 0
  /\ RTD_CalculateTemperature RTD_SENSOR_PT100 100 (-1e60) = 0
  /\ RTD_CalculateTemperature RTD_SENSOR_PT100 268.5 25
     = newton_update 100 268.5
         (temperature_estimate
            (RTD_CalculateTemperature_locals RTD_SENSOR_PT100 268.5 25)).
Proof.
  assert (Hrow : In (RTD_SENSOR_PT100, 100, 18.3, 390.6) sensor_table)
    by (simpl; auto).
  destruct C9_unguarded_division as (_ & Hall & Hcap & _ & Hinf & Hrun).
  split; [ apply (Hinf _ _ _ _ 100 infinity Hrow); reflexivity | ].
  split; [ apply (Hcap _ _ _ _ 100 3000 Hrow);
           [ reflexivity | vm_compute; reflexivity ] | ].
  split; [ apply (Hrun _ _ _ _ Hrow) | ].
  destruct (Hall _ _ _ _ 268.5 25 Hrow eq_refl)
    as ([[Hit _] | (_ & _ & Hupd)] & _ & _).
  - vm_compute in Hit. discriminate Hit.
  - exact Hupd.
Defined.

(** ** The resistance bands *)

(** C6, as stated, fails: PT100 accepts 18.4 ohms, which lies below the
    resistance that [RTD_CalculateResistance] gives at -200 degrees
    (18.52...), so the accepted band is not the interval between the forward
    values at -200 and 850 degrees. *)
Lemma C6_band_not_forward_extremes :
  ~ (forall sensor_type resistance,
        recognized sensor_type ->
        accepts sensor_type resistance = true <->
        (RTD_CalculateResistance sensor_type (-200) <=? resistance) = true
        /\ (resistance <=? RTD_CalculateResistance sensor_type 850) = true).
Proof.
  intros H.
  assert (Hrec : recognized RTD_SENSOR_PT100)
    by (unfold recognized; simpl; auto).
  destruct (H RTD_SENSOR_PT100 18.4 Hrec) as [Hfwd _].
  destruct (Hfwd eq_refl) as [Hlo _]. vm_compute in Hlo. discriminate Hlo.
Qed.

(** C6, amended.  For a recognized class [RTD_CalculateTemperature] accepts
    a resistance exactly when it is neither below the class minimum nor
    above the class maximum of [sensor_table]; these two constants enclose
    the forward values at the temperature extremes strictly: the minimum is
    below [RTD_CalculateResistance] at -200 and the maximum above
    [RTD_CalculateResistance] at 850. *)
Theorem C6_band_encloses_forward_extremes sensor_type r0 lo hi :
  In (sensor_type, r0, lo, hi) sensor_table ->
  (forall resistance,
      accepts sensor_type resistance = true <->
      (resistance <? lo) = false /\ gtb resistance hi = false)
  /\ (lo <? RTD_CalculateResistance sensor_type (-200)) = true
  /\ (RTD_CalculateResistance sensor_type 850 <? hi) = true.
Proof.
  intros Hrow. split.
  - intros resistance. rewrite (accepts_row _ _ _ _ _ Hrow).
    rewrite negb_true_iff, orb_false_iff. reflexivity.
  - each_row Hrow; split; reflexivity.
Qed.

Lemma C6_band_encloses_forward_extremes_witness :
  (accepts RTD_SENSOR_PT100 18.4 = true)
  /\ (18.3 <? RTD_CalculateResistance RTD_SENSOR_PT100 (-200)) = true
  /\ (RTD_CalculateResistance RTD_SENSOR_PT100 850 <? 390.6) = true.
Proof.
  assert (Hrow : In (RTD_SENSOR_PT100, 100, 18.3, 390.6) sensor_table)
    by (simpl; auto).
  destruct (C6_band_encloses_forward_extremes _ _ _ _ Hrow)
    as (Hacc & Hlo & Hhi).
  split; [ apply Hacc; split; reflexivity | split; assumption ].
Defined.

(** ** The derivative *)

(** For an estimate that is not negative the loop uses the derivative of the
    polynomial of that branch. *)
Lemma derivative_value_nonnegative r0 resistance t :
  geb t 0 = true ->
  derivative_value r0 resistance t = Spec.cvd_nonnegative_derivative r0 t.
Proof.
  intros H. unfold derivative_value, evaluate. rewrite H. reflexivity.
Qed.

(** For an estimate that is not negative the value function is the
    polynomial of that branch minus the resistance, with [B T^2] computed as
    [(B * T) * T]. *)
Lemma function_value_nonnegative r0 resistance t :
  geb t 0 = true ->
  function_value r0 resistance t
  = r0 * (1 + Spec.A * t + Spec.B * t * t) - resistance.
Proof.
  intros H. unfold function_value, evaluate. rewrite H. reflexivity.
Qed.

(** For a negative estimate the value function is the polynomial of the
    negative branch minus the resistance, and the derivative is the
    expression of the source. *)
Lemma evaluate_negative r0 resistance t :
  geb t 0 = false ->
  function_value r0 resistance t = Spec.cvd_negative r0 t - resistance
  /\ derivative_value r0 resistance t
     = r0 * (Spec.A + 2 * Spec.B * t + 3 * Spec.C * (t * t)
             - 200 * Spec.C * t + 300 * Spec.C * (t * t)).
Proof.
  intros H. unfold function_value, derivative_value, evaluate. rewrite H.
  split; reflexivity.
Qed.


(** C3.  [RTD_CalculateTemperature (PT100, 18.52, -200.0)], first pass: the
    estimate is negative, the derivative the loop divides by is below
    0.409, and the derivative of the negative-branch polynomial,
    [R0 * (A + 2 B T + C (4 T^3 - 300 T^2))], is above 0.432 there; so the
    update is not the Newton-Raphson update of the polynomial. *)
Theorem C3_negative_branch_derivative :
  geb (-200) 0 = false
  /\ loop_body 100 18.52 (mkLocals (-200) 0 0 0)
     = inr (mkLocals (newton_update 100 18.52 (-200))
              (newton_update 100 18.52 (-200)) 1 0)
  /\ (derivative_value 100 18.52 (-200) <? 0.409) = true
  /\ (0.432 <? Spec.cvd_negative_derivative 100 (-200)) = true
  /\ newton_update 100 18.52 (-200)
     <> -200 - function_value 100 18.52 (-200)
               / Spec.cvd_negative_derivative 100 (-200).
Proof.
  vm_compute. repeat split; try reflexivity. discriminate.
Qed.

(** ** The round trip on sample temperatures *)

(** At every quarter degree from -200 to 850 and for every recognized
    class, the inverse solver started at the temperature itself, half a
    degree above it or half a degree below it returns the temperature
    within [1e-6]. *)
Lemma round_trip_quarter_degrees :
  forallb
    (fun T =>
       forallb
         (fun row =>
            let sensor_type := fst (fst (fst row)) in
            round_trip_ok sensor_type T T
            && round_trip_ok sensor_type T (T + 0.5)
            && round_trip_ok sensor_type T (T - 0.5))
         sensor_table)
    quarter_degrees = true.
Proof. vm_compute. reflexivity. Qed.

Lemma quarter_degrees_ends :
  hd 0 quarter_degrees = -200 /\ last quarter_degrees 0 = 850.
Proof. vm_compute. split; reflexivity. Qed.

(** * Further facts about binary64 numbers *)

Section ZeroAndNaN.

Lemma sub_nan_r (x : float) : x - nan = nan.
Proof.
  apply Prim2SF_inj. rewrite sub_spec.
  change (Prim2SF nan) with S754_nan.
  destruct (Prim2SF x) as [s|s| |s m e]; reflexivity.
Qed.

Lemma div_nan_l (x : float) : nan / x = nan.
Proof. apply Prim2SF_inj. rewrite div_spec. reflexivity. Qed.

(** A finite number minus itself is the positive zero. *)
Lemma sub_diag_finite (x : float) : is_finite x = true -> x - x = 0.
Proof.
  intros H. apply Prim2SF_inj. rewrite sub_spec.
  change (Prim2SF 0) with (S754_zero false).
  destruct (Prim2SF x) as [s|s| |s m e] eqn:E.
  - destruct s; reflexivity.
  - exfalso. rewrite <- (SF2Prim_Prim2SF x), E in H.
    destruct s; discriminate H.
  - exfalso. rewrite <- (SF2Prim_Prim2SF x), E in H. discriminate H.
  - unfold SF64sub, SFsub. cbv zeta. rewrite Z.sub_diag. reflexivity.
Qed.

(** A number that compares equal to zero is one of the two zeros. *)
Lemma eqb_zero_cases (x : float) :
  (x =? 0) = true -> exists s, Prim2SF x = S754_zero s.
Proof.
  rewrite eqb_spec. change (Prim2SF 0) with (S754_zero false).
  destruct (Prim2SF x) as [s|s| |s m e]; unfold SFeqb; simpl;
    try discriminate; try (destruct s; discriminate).
  intros _. exists s. reflexivity.
Qed.

(** A zero divided by a number that is neither zero nor NaN is a zero. *)
Lemma zero_div (z d : float) (s : bool) :
  Prim2SF z = S754_zero s ->
  is_nan d = false -> (d =? 0) = false ->
  exists s', Prim2SF (z / d) = S754_zero s'.
Proof.
  intros Hz Hnan Hd. rewrite div_spec, Hz.
  unfold is_nan in Hnan. rewrite eqb_spec in Hnan, Hd.
  change (Prim2SF 0) with (S754_zero false) in Hd.
  destruct (Prim2SF d) as [sd|sd| |sd md ed].
  - discriminate Hd.
  - eexists. reflexivity.
  - discriminate Hnan.
  - eexists. reflexivity.
Qed.

(** Subtracting a zero from a finite number that is not zero leaves it. *)
Lemma sub_zero_r (x z : float) (s : bool) :
  is_finite x = true -> (x =? 0) = false ->
  Prim2SF z = S754_zero s -> x - z = x.
Proof.
  intros Hfin Hx Hz. apply Prim2SF_inj. rewrite sub_spec, Hz.
  rewrite eqb_spec in Hx. change (Prim2SF 0) with (S754_zero false) in Hx.
  destruct (Prim2SF x) as [sx|sx| |sx mx ex] eqn:E.
  - discriminate Hx.
  - exfalso. rewrite <- (SF2Prim_Prim2SF x), E in Hfin.
    destruct sx; discriminate Hfin.
  - exfalso. rewrite <- (SF2Prim_Prim2SF x), E in Hfin. discriminate Hfin.
  - reflexivity.
Qed.

(** A number between two finite numbers is finite. *)
Lemma between_is_finite (a x b : float) :
  is_finite a = true -> is_finite b = true ->
  (a <=? x) = true -> (x <=? b) = true -> is_finite x = true.
Proof.
  intros Ha Hb Hax Hxb.
  destruct (is_finite x) eqn:Hx; [ reflexivity | exfalso ].
  rewrite leb_spec in Hax, Hxb.
  destruct (not_finite_cases x Hx) as [-> | [-> | ->]].
  - destruct (Prim2SF a); discriminate Hax.
  - change (Prim2SF infinity) with (S754_infinity false) in Hxb.
    destruct (Prim2SF b) as [sb|sb| |sb mb eb] eqn:E.
    + discriminate Hxb.
    + rewrite <- (SF2Prim_Prim2SF b), E in Hb. destruct sb; discriminate.
    + discriminate Hxb.
    + discriminate Hxb.
  - change (Prim2SF neg_infinity) with (S754_infinity true) in Hax.
    destruct (Prim2SF a) as [sa|sa| |sa ma ea] eqn:E.
    + destruct sa; discriminate Hax.
    + rewrite <- (SF2Prim_Prim2SF a), E in Ha. destruct sa; discriminate.
    + discriminate Hax.
    + destruct sa; discriminate Hax.
Qed.

End ZeroAndNaN.

(** * What every call returns *)

(** Only a recognized class gets past the [switch]. *)
Lemma accepts_recognized sensor_type resistance :
  accepts sensor_type resistance = true ->
  exists r0 lo hi,
    In (sensor_type, r0, lo, hi) sensor_table
    /\ fst (check_resistance sensor_type resistance) = r0.
Proof.
  intros Hacc.
  destruct (in_dec Z.eq_dec sensor_type
              (map (fun row => fst (fst (fst row))) sensor_table))
    as [Hin | Hout].
  - destruct (recognized_row _ Hin) as (r0 & lo & hi & Hrow).
    exists r0, lo, hi. split; [ exact Hrow | ].
    rewrite (check_resistance_row _ _ _ _ _ Hrow). reflexivity.
  - exfalso. destruct (unrecognized_default _ Hout) as [_ Hc].
    unfold accepts in Hacc. rewrite Hc in Hacc. discriminate Hacc.
Qed.

(** X4.  Every call of [RTD_CalculateTemperature] ends in one of three
    ways.  The resistance is rejected: the failure value is returned and the
    locals are as initialised.  The counter reaches [max_iterations]: [0.0]
    is returned.  The loop is left through [break] with the counter below
    [max_iterations]: the value returned is the update [t - f(t) / d(t)] of
    the last estimate [t], and it lies within [tolerance] of [t]. *)
Theorem X4_three_outcomes sensor_type resistance g :
  let s := RTD_CalculateTemperature_locals sensor_type resistance g in
  let r0 := fst (check_resistance sensor_type resistance) in
  (accepts sensor_type resistance = false
   /\ s = mkLocals g 0 0 RTD_CONVERSION_FAILED)
  \/ (accepts sensor_type resistance = true
      /\ iteration s = max_iterations
      /\ temperature s = 0)
  \/ (accepts sensor_type resistance = true
      /\ (0 <= iteration s < max_iterations)%Z
      /\ converged r0 resistance (temperature_estimate s) = true
      /\ temperature s
         = newton_update r0 resistance (temperature_estimate s)).
Proof.
  cbv zeta. destruct (accepts sensor_type resistance) eqn:Hacc.
  - right.
    destruct (accepts_recognized _ _ Hacc) as (r0 & lo & hi & Hrow & ->).
    destruct (RTD_CalculateTemperature_exit _ _ _ _ _ g Hrow Hacc)
      as [Hcap Htemp | t Hrange Hte Hconv Htemp].
    + left. auto.
    + right. subst t. simpl in Hrange. auto.
  - left. split; [ reflexivity | ].
    destruct (RTD_CalculateTemperature_rejected _ _ g Hacc) as (r & Hl & Hc).
    rewrite Hl, Hc. reflexivity.
Qed.

(** The guard of the loop keeps the counter at or below [max_iterations],
    however many passes the loop is allowed. *)
Lemma while_loop_iteration_bounds fuel r0 resistance s :
  (iteration s <= max_iterations)%Z ->
  (iteration s <= iteration (while_loop fuel r0 resistance s)
   <= max_iterations)%Z.
Proof.
  revert s. induction fuel as [ | fuel IH ]; intros s Hle.
  - simpl. lia.
  - rewrite while_loop_S.
    destruct (iteration s <? max_iterations)%Z eqn:Hguard; [ | lia ].
    apply Z.ltb_lt in Hguard.
    destruct (loop_body r0 resistance s) as [s' | s'] eqn:E.
    + apply loop_body_break in E. destruct E as (_ & _ & _ & _ & ->). lia.
    + apply loop_body_continue in E. destruct E as (_ & _ & _ & _ & Hit).
      specialize (IH s'). rewrite Hit in IH. lia.
Qed.

(** X1.  The test [iteration < max_iterations] bounds the loop of
    [RTD_CalculateTemperature].  Entered with the counter at or below
    [max_iterations], the loop ends with the counter at or below
    [max_iterations] however many passes it is allowed, so the 16-bit
    counter never wraps; allowing more than [max_iterations] passes changes
    nothing of what an accepted call computes; and every call ends with the
    counter between 0 and [max_iterations]. *)
Theorem X1_iteration_bounds :
  (forall fuel r0 resistance s,
      (iteration s <= max_iterations)%Z ->
      (iteration s <= iteration (while_loop fuel r0 resistance s)
       <= max_iterations)%Z)
  /\ (forall sensor_type r0 lo hi resistance g extra,
         In (sensor_type, r0, lo, hi) sensor_table ->
         accepts sensor_type resistance = true ->
         while_loop (extra + Z.to_nat max_iterations) r0 resistance
           (mkLocals g 0 0 0)
         = RTD_CalculateTemperature_locals sensor_type resistance g)
  /\ (forall sensor_type resistance g,
         (0 <= iteration
                 (RTD_CalculateTemperature_locals sensor_type resistance g)
          <= max_iterations)%Z).
Proof.
  split; [ exact while_loop_iteration_bounds | ]. split.
  - intros sensor_type r0 lo hi resistance g extra Hrow Hacc.
    rewrite (RTD_CalculateTemperature_accepted _ _ _ _ _ g Hrow Hacc).
    apply while_loop_more_fuel. reflexivity.
  - intros sensor_type resistance g.
    destruct (accepts sensor_type resistance) eqn:Hacc.
    + destruct (accepts_recognized _ _ Hacc) as (r0 & lo & hi & Hrow & _).
      rewrite (RTD_CalculateTemperature_accepted _ _ _ _ _ g Hrow Hacc).
      apply (while_loop_iteration_bounds _ _ _ (mkLocals g 0 0 0)).
      discriminate.
    + destruct (RTD_CalculateTemperature_rejected _ _ g Hacc)
        as (r & -> & _).
      simpl. unfold max_iterations. lia.
Qed.

Lemma X1_iteration_bounds_witness :
  (iteration (while_loop 5000 100 100 (mkLocals 3000 0 0 0)) <= 1000)%Z
  /\ while_loop (4000 + Z.to_nat max_iterations) 100 100 (mkLocals 3000 0 0 0)
     = RTD_CalculateTemperature_locals RTD_SENSOR_PT100 100 3000.
Proof.
  destruct X1_iteration_bounds as (Hbound & Hfuel & _).
  split.
  - apply (Hbound 5000%nat 100 100 (mkLocals 3000 0 0 0)). discriminate.
  - apply (Hfuel RTD_SENSOR_PT100 100 18.3 390.6 100 3000 4000%nat);
      [ simpl; auto | reflexivity ].
Defined.

(** X2.  [RTD_CalculateTemperature] never returns NaN or an infinity,
    whatever its arguments are (NaN and infinite arguments included): the
    value returned is the failure value, [0.0], or an update that passed
    the convergence test. *)
Theorem X2_result_is_finite sensor_type resistance g :
  is_finite (RTD_CalculateTemperature sensor_type resistance g) = true.
Proof.
  destruct (accepts sensor_type resistance) eqn:Hacc.
  - destruct (accepts_recognized _ _ Hacc) as (r0 & lo & hi & Hrow & _).
    exact (RTD_CalculateTemperature_finite _ _ _ _ _ g Hrow Hacc).
  - unfold RTD_CalculateTemperature.
    destruct (RTD_CalculateTemperature_rejected _ _ g Hacc) as (r & -> & ->).
    reflexivity.
Qed.

(** * Resistances and estimates at the edge *)

Lemma newton_update_nan_resistance (r0 t : float) :
  newton_update r0 nan t = nan.
Proof.
  unfold newton_update, function_value, derivative_value, evaluate.
  destruct (geb t 0); cbn [fst snd];
    rewrite sub_nan_r, div_nan_l, sub_nan_r; reflexivity.
Qed.

(** X3.  A NaN resistance is not rejected: for a recognized class both band
    comparisons are false, the loop runs to the cap, and
    [RTD_CalculateTemperature] returns [0.0], whatever the initial
    estimate. *)
Theorem X3_nan_resistance sensor_type resistance g :
  recognized sensor_type -> is_nan resistance = true ->
  accepts sensor_type resistance = true
  /\ iteration (RTD_CalculateTemperature_locals sensor_type resistance g)
     = max_iterations
  /\ RTD_CalculateTemperature sensor_type resistance g = 0.
Proof.
  intros Hrec Hnan. rewrite (is_nan_eq _ Hnan).
  destruct (recognized_row _ Hrec) as (r0 & lo & hi & Hrow).
  assert (Hacc : accepts sensor_type nan = true).
  { rewrite (accepts_row _ _ _ _ _ Hrow). each_row Hrow; reflexivity. }
  split; [ exact Hacc | ].
  unfold RTD_CalculateTemperature.
  rewrite (RTD_CalculateTemperature_accepted _ _ _ _ _ g Hrow Hacc).
  change (Z.to_nat max_iterations) with (S 999).
  rewrite while_loop_S. cbn [iteration].
  change (0 <? max_iterations)%Z with true. cbv iota.
  rewrite loop_body_eq. cbv zeta. cbn [temperature_estimate iteration temperature].
  unfold converged. rewrite newton_update_nan_resistance, sub_nan_l.
  change (fabs nan <? tolerance) with false. cbv iota.
  apply (while_loop_not_finite _ _ _ _ nan 999
           (mkLocals nan nan (0 + 1) 0) Hrow); reflexivity.
Qed.

Lemma X3_nan_resistance_witness :
  RTD_CalculateTemperature RTD_SENSOR_PT100 nan 25 = 0.
Proof.
  apply (X3_nan_resistance RTD_SENSOR_PT100 nan 25).
  - unfold recognized. simpl. auto.
  - reflexivity.
Defined.

(** * Exact roots *)

(** At a finite, nonzero estimate where the value function is zero and the
    derivative is a nonzero number, the update is the estimate itself and
    the convergence test succeeds. *)
Lemma newton_update_at_root (r0 resistance g : float) :
  is_finite g = true -> (g =? 0) = false ->
  (function_value r0 resistance g =? 0) = true ->
  is_nan (derivative_value r0 resistance g) = false ->
  (derivative_value r0 resistance g =? 0) = false ->
  newton_update r0 resistance g = g /\ converged r0 resistance g = true.
Proof.
  intros Hfin Hg Hf Hnan Hd.
  destruct (eqb_zero_cases _ Hf) as [s Hs].
  destruct (zero_div _ _ s Hs Hnan Hd) as [s' Hq].
  assert (Hupd : newton_update r0 resistance g = g)
    by (unfold newton_update; exact (sub_zero_r _ _ s' Hfin Hg Hq)).
  split; [ exact Hupd | ].
  unfold converged. rewrite Hupd, (sub_diag_finite _ Hfin). reflexivity.
Qed.

(** When the convergence test succeeds at the initial estimate, the
    function returns the first update with the counter at zero. *)
Lemma converged_at_first_pass sensor_type r0 lo hi resistance g :
  In (sensor_type, r0, lo, hi) sensor_table ->
  accepts sensor_type resistance = true ->
  converged r0 resistance g = true ->
  RTD_CalculateTemperature_locals sensor_type resistance g
  = mkLocals g (newton_update r0 resistance g) 0
      (newton_update r0 resistance g).
Proof.
  intros Hrow Hacc Hconv.
  rewrite (RTD_CalculateTemperature_accepted _ _ _ _ _ g Hrow Hacc).
  change (Z.to_nat max_iterations) with (S 999).
  rewrite while_loop_S. cbn [iteration].
  change (0 <? max_iterations)%Z with true. cbv iota.
  rewrite loop_body_eq. cbv zeta. cbn [temperature_estimate iteration].
  rewrite Hconv. reflexivity.
Qed.

(** X6.  An initial estimate that is an exact root is returned unchanged
    after one pass: if the class is recognized, the resistance accepted, the
    estimate [g] finite and not zero, the value function zero at [g] and
    the derivative there neither zero nor NaN, then
    [RTD_CalculateTemperature] returns [g] with the counter at zero.  This
    holds in both sign branches. *)
Theorem X6_root_is_returned sensor_type r0 lo hi resistance g :
  In (sensor_type, r0, lo, hi) sensor_table ->
  accepts sensor_type resistance = true ->
  is_finite g = true -> (g =? 0) = false ->
  (function_value r0 resistance g =? 0) = true ->
  is_nan (derivative_value r0 resistance g) = false ->
  (derivative_value r0 resistance g =? 0) = false ->
  RTD_CalculateTemperature sensor_type resistance g = g
  /\ iteration (RTD_CalculateTemperature_locals sensor_type resistance g)
     = 0%Z.
Proof.
  intros Hrow Hacc Hfin Hg Hf Hnan Hd.
  destruct (newton_update_at_root _ _ _ Hfin Hg Hf Hnan Hd) as [Hupd Hconv].
  unfold RTD_CalculateTemperature.
  rewrite (converged_at_first_pass _ _ _ _ _ _ Hrow Hacc Hconv), Hupd.
  split; reflexivity.
Qed.

Lemma X6_root_is_returned_witness :
  RTD_CalculateTemperature RTD_SENSOR_PT100
    (RTD_CalculateResistance RTD_SENSOR_PT100 1) 1 = 1
  /\ RTD_CalculateTemperature RTD_SENSOR_PT100
       (RTD_CalculateResistance RTD_SENSOR_PT100 (-50)) (-50) = -50.
Proof.
  split;
    (apply (X6_root_is_returned RTD_SENSOR_PT100 100 18.3 390.6);
     [ simpl; auto | reflexivity .. ]).
Defined.

(** * The round trip from a negative temperature *)

Lemma ltb_leb (a b : float) : (a <? b) = true -> (a <=? b) = true.
Proof.
  rewrite ltb_spec, leb_spec. unfold SFltb, SFleb.
  destruct (SFcompare (Prim2SF a) (Prim2SF b)) as [[ | | ]|];
    congruence.
Qed.

Lemma ltb_not_eqb (a b : float) : (a <? b) = true -> (a =? b) = false.
Proof.
  rewrite ltb_spec, eqb_spec. unfold SFltb, SFeqb.
  destruct (SFcompare (Prim2SF a) (Prim2SF b)) as [[ | | ]|];
    congruence.
Qed.

(** A negative number is not above 850.5. *)
Lemma negative_not_above (T : float) :
  (T <? 0) = true -> gtb T 850.5 = false.
Proof.
  unfold gtb. rewrite !ltb_spec.
  change (Prim2SF 0) with (S754_zero false).
  assert (H : exists m e, Prim2SF 850.5 = S754_finite false m e)
    by (eexists; eexists; vm_compute; reflexivity).
  destruct H as (m & e & ->).
  destruct (Prim2SF T) as [[ | ]|[ | ]| |[ | ] mt et];
    try discriminate; reflexivity.
Qed.

(** Below zero and in range, the value function of the loop at [T] is the
    forward conversion of [T] minus the resistance, bit for bit. *)
Lemma function_value_forward sensor_type r0 lo hi resistance T :
  In (sensor_type, r0, lo, hi) sensor_table ->
  (-200.5 <=? T) = true -> (T <? 0) = true ->
  function_value r0 resistance T
  = RTD_CalculateResistance sensor_type T - resistance.
Proof.
  intros Hrow Hlo Hneg.
  pose proof (ltb_true_leb_false _ _ Hneg) as Hgeb.
  rewrite (RTD_CalculateResistance_in_range _ _ _ _ _ Hrow
             (leb_true_ltb_false _ _ Hlo) (negative_not_above _ Hneg)).
  unfold geb. rewrite Hgeb.
  exact (proj1 (evaluate_negative r0 resistance T Hgeb)).
Qed.

(** X5.  The round trip from a negative temperature is exact when the
    inverse solver starts at the temperature itself: for a recognized class
    and [-200.5 <= T < 0], if the resistance [R] that
    [RTD_CalculateResistance] returns is finite and accepted and the
    derivative the loop computes at [T] is neither zero nor NaN, then
    [RTD_CalculateTemperature] called with [R] and the estimate [T] returns
    [T] itself, in its first pass. *)
Theorem X5_round_trip_negative sensor_type r0 lo hi T :
  In (sensor_type, r0, lo, hi) sensor_table ->
  (-200.5 <=? T) = true -> (T <? 0) = true ->
  let R := RTD_CalculateResistance sensor_type T in
  is_finite R = true ->
  accepts sensor_type R = true ->
  is_nan (derivative_value r0 R T) = false ->
  (derivative_value r0 R T =? 0) = false ->
  RTD_CalculateTemperature sensor_type R T = T
  /\ iteration (RTD_CalculateTemperature_locals sensor_type R T) = 0%Z.
Proof.
  intros Hrow Hlo Hneg R HR Hacc Hnan Hd.
  assert (HT : is_finite T = true)
    by (apply (between_is_finite (-200.5) T 0);
        [ reflexivity | reflexivity | exact Hlo | exact (ltb_leb _ _ Hneg) ]).
  assert (Hf : (function_value r0 R T =? 0) = true).
  { rewrite (function_value_forward _ _ _ _ R _ Hrow Hlo Hneg).
    fold R. rewrite (sub_diag_finite _ HR). reflexivity. }
  destruct (newton_update_at_root _ _ _ HT (ltb_not_eqb _ _ Hneg) Hf Hnan Hd)
    as [Hupd Hconv].
  unfold RTD_CalculateTemperature.
  rewrite (converged_at_first_pass _ _ _ _ _ _ Hrow Hacc Hconv), Hupd.
  split; reflexivity.
Qed.

Lemma X5_round_trip_negative_witness :
  RTD_CalculateTemperature RTD_SENSOR_PT1000
    (RTD_CalculateResistance RTD_SENSOR_PT1000 (-123.456)) (-123.456)
  = -123.456.
Proof.
  assert (Hrow : In (RTD_SENSOR_PT1000, 1000, 182.5, 3906.5) sensor_table)
    by (simpl; auto 6).
  exact (proj1 (X5_round_trip_negative RTD_SENSOR_PT1000 1000 182.5 3906.5
                  (-123.456) Hrow eq_refl eq_refl eq_refl eq_refl eq_refl
                  eq_refl)).
Defined.

(** * The two functions together *)

Lemma rejected_returns_failed sensor_type resistance :
  accepts sensor_type resistance = false ->
  forall g,
    RTD_CalculateTemperature sensor_type resistance g
    = RTD_CONVERSION_FAILED.
Proof.
  intros Hacc g. unfold RTD_CalculateTemperature.
  destruct (RTD_CalculateTemperature_rejected _ _ g Hacc) as (r & -> & ->).
  reflexivity.
Qed.

(** X7.  The resistance bands of [RTD_CalculateTemperature] do not cover
    everything [RTD_CalculateResistance] produces.  At the two ends of the
    temperature range it accepts, -200.5 and 850.5, the forward conversion
    succeeds for every class, but the inverse solver rejects the result for
    PT50 at both ends and for PT100 and PT500 at 850.5; it accepts the other
    six. *)
Theorem X7_range_ends_rejected :
  forward_then_rejected RTD_SENSOR_PT50 (-200.5)
  /\ forward_then_rejected RTD_SENSOR_PT50 850.5
  /\ forward_then_rejected RTD_SENSOR_PT100 850.5
  /\ forward_then_rejected RTD_SENSOR_PT500 850.5
  /\ forallb
       (fun p => accepts (fst p) (RTD_CalculateResistance (fst p) (snd p)))
       [ (RTD_SENSOR_PT100, -200.5); (RTD_SENSOR_PT200, -200.5);
         (RTD_SENSOR_PT500, -200.5); (RTD_SENSOR_PT1000, -200.5);
         (RTD_SENSOR_PT200, 850.5); (RTD_SENSOR_PT1000, 850.5) ] = true.
Proof.
  repeat split; try reflexivity;
    apply rejected_returns_failed; reflexivity.
Qed.

(** X8.  A return value of [0.0] does not tell a reading from a failure.
    For every recognized class, the resistance [R0] with the estimate [0.0]
    converges in the first pass to [0.0], the temperature at which the
    sensor has that resistance; the same resistance with a NaN estimate
    runs to the cap and also returns [0.0]. *)
Theorem X8_zero_is_ambiguous sensor_type r0 lo hi :
  In (sensor_type, r0, lo, hi) sensor_table ->
  (RTD_CalculateTemperature sensor_type r0 0 = 0
   /\ iteration (RTD_CalculateTemperature_locals sensor_type r0 0) = 0%Z
   /\ converged r0 r0 0 = true)
  /\ (RTD_CalculateTemperature sensor_type r0 nan = 0
      /\ iteration (RTD_CalculateTemperature_locals sensor_type r0 nan)
         = max_iterations).
Proof.
  intros Hrow. each_row Hrow; vm_compute; repeat split; reflexivity.
Qed.

Lemma X8_zero_is_ambiguous_witness :
  RTD_CalculateTemperature RTD_SENSOR_PT100 100 0
  = RTD_CalculateTemperature RTD_SENSOR_PT100 100 nan.
Proof.
  assert (Hrow : In (RTD_SENSOR_PT100, 100, 18.3, 390.6) sensor_table)
    by (simpl; auto).
  destruct (X8_zero_is_ambiguous _ _ _ _ Hrow) as [(-> & _) (-> & _)].
  reflexivity.
Defined.

(** X9.  [RTD_CalculateTemperature] does not check that its result is a
    temperature of the supported range.  For every recognized class, the
    resistance [R0] with the estimate 5000 converges, below the cap, to a
    value above 6767, which [RTD_CalculateResistance] rejects as out of
    range. *)
Theorem X9_result_out_of_range sensor_type r0 lo hi :
  In (sensor_type, r0, lo, hi) sensor_table ->
  let s := RTD_CalculateTemperature_locals sensor_type r0 5000 in
  accepts sensor_type r0 = true
  /\ (iteration s <? max_iterations)%Z = true
  /\ converged r0 r0 (temperature_estimate s) = true
  /\ (6767 <? RTD_CalculateTemperature sensor_type r0 5000) = true
  /\ RTD_CalculateResistance sensor_type
       (RTD_CalculateTemperature sensor_type r0 5000)
     = RTD_CONVERSION_FAILED.
Proof.
  intros Hrow. each_row Hrow; vm_compute; repeat split; reflexivity.
Qed.

Lemma X9_result_out_of_range_witness :
  (6767 <? RTD_CalculateTemperature RTD_SENSOR_PT100 100 5000) = true.
Proof.
  assert (Hrow : In (RTD_SENSOR_PT100, 100, 18.3, 390.6) sensor_table)
    by (simpl; auto).
  destruct (X9_result_out_of_range _ _ _ _ Hrow) as (_ & _ & _ & H & _).
  exact H.
Defined.
